(** * Multimethods over a plain JavaScript object

    A shallow embedding of [src/multimethod.ts] (and of its compiled form
    [src/multimethod.js]).  The method table of the source is the object
    literal [{}]: every read [methods[dispatch]] and every write
    [methods[dispatch] = method] is an ordinary [[Get]] / [[Set]] and so
    walks the prototype chain of that object.  The embedding therefore
    models

    - property keys (strings and the module-private symbol),
    - the own properties of the table and its [[Prototype]] slot,
    - the properties a standard realm puts on [Object.prototype] and
      [Function.prototype], with their writability, and the [__proto__]
      accessor,
    - the closure created by [multimethod], kept in a store so that the
      reference returned by [method] can be compared with the receiver.

    Modelling boundary: the realm is pristine (nobody has patched
    [Object.prototype]); implementations are function objects as an arrow
    function or a function expression creates them in strict code
    (sloppy-mode functions, which own [caller] and [arguments], and async
    or generator functions, whose prototype adds a read-only
    [constructor], are outside it, and so is a Proxy).  User functions
    (the dispatch function and the implementations) are maps from
    arguments to a completion; the registrations they may make while they
    run are modelled beside them in the section on caller code. *)

From Stdlib Require Import String List.
From stdpp Require Import base option countable gmap strings.

Local Open Scope string_scope.

(** ** Property keys *)

Inductive PropertyKey : Type :=
  | KString (s : string)
  | KSymbol (description : string).

(** [const defaultDispatch = Symbol("defaultDispatch")] (multimethod.ts:7). *)
Definition defaultDispatch : PropertyKey := KSymbol "defaultDispatch".

#[global] Instance PropertyKey_eq_dec : EqDecision PropertyKey.
Proof. solve_decision. Defined.

Definition PropertyKey_to_sum (k : PropertyKey) : string + string :=
  match k with KString s => inl s | KSymbol d => inr d end.

Definition PropertyKey_of_sum (x : string + string) : PropertyKey :=
  match x with inl s => KString s | inr d => KSymbol d end.

#[global] Instance PropertyKey_countable : Countable PropertyKey.
Proof.
  refine (inj_countable' PropertyKey_to_sum PropertyKey_of_sum _).
  intros [s|d]; reflexivity.
Defined.

(** ** Built-in function objects reachable from the table *)

Inductive Builtin : Type :=
  | Object_constructor
  | Object_toString
  | Object_toLocaleString
  | Object_valueOf
  | Object_hasOwnProperty
  | Object_isPrototypeOf
  | Object_propertyIsEnumerable
  | Object_defineGetter
  | Object_defineSetter
  | Object_lookupGetter
  | Object_lookupSetter
  | Function_constructor
  | Function_apply
  | Function_bind
  | Function_call
  | Function_toString.

Section Model.

(** [Args]: the argument tuple; [Ret]: the declared return type;
    [Err]: the values user code may throw. *)
Context {Args Ret Err : Type}.

(** Completion of a user function. *)
Inductive Completion (A : Type) : Type :=
  | Normal (a : A)
  | Raise (e : Err).

(** [Method<Args, Return>]: a function object.  [m_prototype] tells
    whether it owns a [prototype] property (strict function expressions
    do, arrow functions do not). *)
Record Method : Type := mkMethod {
  m_call : Args -> Completion Ret;
  m_prototype : bool
}.

(** What a property read can produce. *)
Inductive Value : Type :=
  | VUndefined
  | VMethod (m : Method)
  | VBuiltin (b : Builtin)
  | VObjectPrototype        (* the object %Object.prototype% *)
  | VFunctionName           (* a string: the [name] of a function *)
  | VFunctionLength         (* a number: the [length] of a function *)
  | VPrototypeObject.       (* the [prototype] object of a function *)

(** The [[Prototype]] slot of the table: [Object.prototype] at creation,
    a function object once [__proto__] has been assigned. *)
Inductive Proto : Type :=
  | ObjectPrototype
  | FunctionObject (f : Method).

(** Inherited properties, as far as [[Get]] and [[Set]] look at them. *)
Inductive Descriptor : Type :=
  | Data (v : Value) (writable : bool)
  | ProtoAccessor           (* get/set __proto__ *)
  | ThrowerAccessor.        (* get/set %ThrowTypeError% *)

Fixpoint assoc {A : Type} (k : string) (l : list (string * A)) : option A :=
  match l with
  | [] => None
  | (k', a) :: l' => if String.eqb k k' then Some a else assoc k l'
  end.

Definition ObjectPrototype_properties : list (string * Descriptor) :=
  [ ("constructor", Data (VBuiltin Object_constructor) true);
    ("toString", Data (VBuiltin Object_toString) true);
    ("toLocaleString", Data (VBuiltin Object_toLocaleString) true);
    ("valueOf", Data (VBuiltin Object_valueOf) true);
    ("hasOwnProperty", Data (VBuiltin Object_hasOwnProperty) true);
    ("isPrototypeOf", Data (VBuiltin Object_isPrototypeOf) true);
    ("propertyIsEnumerable", Data (VBuiltin Object_propertyIsEnumerable) true);
    ("__defineGetter__", Data (VBuiltin Object_defineGetter) true);
    ("__defineSetter__", Data (VBuiltin Object_defineSetter) true);
    ("__lookupGetter__", Data (VBuiltin Object_lookupGetter) true);
    ("__lookupSetter__", Data (VBuiltin Object_lookupSetter) true);
    ("__proto__", ProtoAccessor) ].

Definition FunctionPrototype_properties : list (string * Descriptor) :=
  [ ("length", Data VFunctionLength false);
    ("name", Data VFunctionName false);
    ("constructor", Data (VBuiltin Function_constructor) true);
    ("apply", Data (VBuiltin Function_apply) true);
    ("bind", Data (VBuiltin Function_bind) true);
    ("call", Data (VBuiltin Function_call) true);
    ("toString", Data (VBuiltin Function_toString) true);
    ("caller", ThrowerAccessor);
    ("arguments", ThrowerAccessor) ].

Definition function_own_properties (f : Method) : list (string * Descriptor) :=
  [ ("length", Data VFunctionLength false);
    ("name", Data VFunctionName false) ]
  ++ (if m_prototype f then [("prototype", Data VPrototypeObject true)] else []).

(** The properties found above the table, nearest first. *)
Definition chain (p : Proto) : list (string * Descriptor) :=
  match p with
  | ObjectPrototype => ObjectPrototype_properties
  | FunctionObject f =>
      function_own_properties f ++ FunctionPrototype_properties
        ++ ObjectPrototype_properties
  end.

Definition inherited (p : Proto) (k : string) : option Descriptor :=
  assoc k (chain p).

Definition proto_value (p : Proto) : Value :=
  match p with
  | ObjectPrototype => VObjectPrototype
  | FunctionObject f => VMethod f
  end.

(** ** The table: [const methods = {}] (multimethod.ts:53) *)

Record Methods : Type := mkMethods {
  own : gmap PropertyKey Method;
  proto : Proto
}.

Definition empty_object : Methods := mkMethods ∅ ObjectPrototype.

Inductive Thrown : Type :=
  | UserThrown (e : Err)
  | ErrorObject (message : string)
  | TypeError.

Inductive Outcome (A : Type) : Type :=
  | Ok (a : A)
  | Throws (x : Thrown).

(** [methods[key]]: own property first, then the chain.  No object of
    the chain carries the module-private symbol. *)
Definition Get (o : Methods) (key : PropertyKey) : Outcome Value :=
  match own o !! key with
  | Some m => Ok _ (VMethod m)
  | None =>
      match key with
      | KSymbol _ => Ok _ VUndefined
      | KString k =>
          match inherited (proto o) k with
          | None => Ok _ VUndefined
          | Some (Data v _) => Ok _ v
          | Some ProtoAccessor => Ok _ (proto_value (proto o))
          | Some ThrowerAccessor => Throws _ TypeError
          end
      end
  end.

Definition define_own (o : Methods) (key : PropertyKey) (m : Method) : Methods :=
  mkMethods (<[key := m]> (own o)) (proto o).

(** [methods[key] = method] in strict code: an own property is
    overwritten; otherwise the chain decides (a read-only inherited
    property and a throwing setter raise TypeError, the [__proto__]
    setter replaces the [[Prototype]] slot, anything else creates an own
    property). *)
Definition Set_ (o : Methods) (key : PropertyKey) (m : Method) : Outcome Methods :=
  match own o !! key with
  | Some _ => Ok _ (define_own o key m)
  | None =>
      match key with
      | KSymbol _ => Ok _ (define_own o key m)
      | KString k =>
          match inherited (proto o) k with
          | None => Ok _ (define_own o key m)
          | Some (Data _ true) => Ok _ (define_own o key m)
          | Some (Data _ false) => Throws _ TypeError
          | Some ProtoAccessor => Ok _ (mkMethods (own o) (FunctionObject m))
          | Some ThrowerAccessor => Throws _ TypeError
          end
      end
  end.

End Model.

Arguments Completion : clear implicits.
Arguments Method : clear implicits.
Arguments Value : clear implicits.
Arguments Proto : clear implicits.
Arguments Descriptor : clear implicits.
Arguments Methods : clear implicits.
Arguments Thrown : clear implicits.
Arguments Outcome : clear implicits.
Arguments Normal {Err A} a.
Arguments Raise {Err A} e.
Arguments Ok {Err A} a.
Arguments Throws {Err A} x.
Arguments TypeError {Err}.
Arguments ErrorObject {Err} message.
Arguments ObjectPrototype {Args Ret Err}.
Arguments VUndefined {Args Ret Err}.
Arguments VBuiltin {Args Ret Err} b.
Arguments VObjectPrototype {Args Ret Err}.
Arguments VFunctionName {Args Ret Err}.
Arguments VFunctionLength {Args Ret Err}.
Arguments VPrototypeObject {Args Ret Err}.
Arguments ProtoAccessor {Args Ret Err}.
Arguments ThrowerAccessor {Args Ret Err}.

Section Invocation.

Context {Args Ret Err : Type}.

#[local] Abbreviation Method := (Method Args Ret Err).
#[local] Abbreviation Methods := (Methods Args Ret Err).
#[local] Abbreviation Value := (Value Args Ret Err).

(** What a call of the multimethod yields. *)
Inductive Result : Type :=
  | Returned (r : Ret)
  | ReturnedString (s : string)   (* a string made by a built-in *)
  | Raised (x : Thrown Err)
  | BuiltinApplied (b : Builtin) (args : Args).
      (* the completion of built-in [b] applied to [args], this = undefined,
         where it depends on the run-time shape of [args] *)

(** A built-in called as [method(...args)], that is with an undefined
    [this]. *)
Definition call_builtin (b : Builtin) (args : Args) : Result :=
  match b with
  | Object_toString => ReturnedString "[object Undefined]"
  | Object_valueOf | Object_toLocaleString
  | Object_defineGetter | Object_defineSetter
  | Object_lookupGetter | Object_lookupSetter
  | Function_apply | Function_bind | Function_call | Function_toString =>
      Raised TypeError
  | Object_constructor | Object_hasOwnProperty | Object_isPrototypeOf
  | Object_propertyIsEnumerable | Function_constructor =>
      BuiltinApplied b args
  end.

(** [method(...args)] (multimethod.ts:58). *)
Definition call_value (v : Value) (args : Args) : Result :=
  match v with
  | VMethod m =>
      match m_call m args with
      | Normal r => Returned r
      | Raise e => Raised (UserThrown e)
      end
  | VBuiltin b => call_builtin b args
  | VUndefined | VObjectPrototype | VFunctionName | VFunctionLength
  | VPrototypeObject => Raised TypeError
  end.

(** [v == null]; the chain holds no [null]. *)
Definition nullish (v : Value) : bool :=
  match v with VUndefined => true | _ => false end.

(** [a ?? b], with [b] evaluated only when needed. *)
Definition coalesce (a : Value) (b : Outcome Err Value) : Outcome Err Value :=
  if nullish a then b else Ok a.

(** The state captured by one call of [multimethod]. *)
Record Closure : Type := mkClosure {
  dispatchFn : Args -> Completion Err string;
  methods : Methods
}.

Definition no_method_message (dispatch : string) : string :=
  "No method defined for dispatch " ++ dispatch.

(** The arrow function of multimethod.ts:54-59. *)
Definition invoke (c : Closure) (args : Args) : Result :=
  match dispatchFn c args with
  | Raise e => Raised (UserThrown e)
  | Normal dispatch =>
      match Get (methods c) (KString dispatch) with
      | Throws x => Raised x
      | Ok v =>
          match coalesce v (Get (methods c) defaultDispatch) with
          | Throws x => Raised x
          | Ok method =>
              if nullish method
              then Raised (ErrorObject (no_method_message dispatch))
              else call_value method args
          end
      end
  end.

(** ** The store of closures *)

Definition Ref : Type := nat.
Definition Store : Type := list Closure.

(** Computations over the store; [None] only for a reference that was
    never allocated. *)
Definition M (A : Type) : Type := Store -> option (A * Store).

Definition ret {A} (a : A) : M A := fun s => Some (a, s).

Definition bind {A B} (m : M A) (k : A -> M B) : M B :=
  fun s => match m s with
           | Some (a, s') => k a s'
           | None => None
           end.

Definition alloc (c : Closure) : M Ref :=
  fun s => Some (Datatypes.length s, (s ++ [c])%list).

Definition read (l : Ref) : M Closure :=
  fun s => match s !! l with Some c => Some (c, s) | None => None end.

Definition write (l : Ref) (c : Closure) : M unit :=
  fun s => Some (tt, <[l := c]> s).

End Invocation.

Arguments Result : clear implicits.
Arguments Closure : clear implicits.
Arguments Store : clear implicits.
Arguments M : clear implicits.
Arguments ReturnedString {Args Ret Err} s.
Arguments Raised {Args Ret Err} x.

Notation "'let*' x ':=' m 'in' k" := (bind m (fun x => k))
  (at level 10, x name, m at level 100, k at level 200).

Section Api.

Context {Args Ret Err : Type}.

#[local] Abbreviation Method := (Method Args Ret Err).
#[local] Abbreviation M := (M Args Ret Err).

(** [multimethod(dispatchFn, defaultMethod?)] (multimethod.ts:49-68).
    The table starts as [{}]; [methods[defaultDispatch] = defaultMethod]
    on the empty object creates an own property. *)
Definition multimethod (dispatchFn : Args -> Completion Err string)
    (defaultMethod : option Method) : M Ref :=
  let methods := empty_object in
  let methods :=
    match defaultMethod with
    | Some d => define_own methods defaultDispatch d
    | None => methods
    end in
  alloc (mkClosure dispatchFn methods).

(** [multimethod.method = (dispatch, method) => { methods[dispatch] = method;
    return multimethod; }] (multimethod.ts:60-63). *)
Definition method (self : Ref) (dispatch : string) (m : Method)
    : M (Outcome Err Ref) :=
  let* c := read self in
  match Set_ (methods c) (KString dispatch) m with
  | Ok methods' =>
      let* _ := write self (mkClosure (dispatchFn c) methods') in
      ret (Ok self)
  | Throws x => ret (Throws x)
  end.

(** [multimethod(...args)]: the call of the returned function. *)
Definition call (self : Ref) (args : Args) : M (Result Args Ret Err) :=
  let* c := read self in
  ret (invoke c args).

End Api.

(** ** Clients *)

Section Clients.

Context {Args Ret Err : Type}.

(** What a holder of the reference can do with it.  A client may catch
    whatever a step throws and go on. *)
Inductive Op : Type :=
  | Register (dispatch : string) (m : Method Args Ret Err)
  | Invoke (args : Args).

Fixpoint perform (self : Ref) (ops : list Op) : M Args Ret Err unit :=
  match ops with
  | [] => ret tt
  | Register dispatch m :: ops' =>
      let* _ := method self dispatch m in perform self ops'
  | Invoke args :: ops' =>
      let* _ := call self args in perform self ops'
  end.

(** [r.method(dispatch, m)] on the result [r] of an earlier call: a
    chain stops at the first call that throws. *)
Definition chained (r : Outcome Err Ref) (dispatch : string)
    (m : Method Args Ret Err) : M Args Ret Err (Outcome Err Ref) :=
  match r with
  | Ok self => method self dispatch m
  | Throws x => ret (Throws x)
  end.

(** The spec's reading of a lookup that hits an inherited name: the
    read yields a built-in function and the call applies it. *)
Definition calls_inherited_function (c : Closure Args Ret Err)
    (args : Args) (k : string) : Prop :=
  exists b : Builtin,
    Get (methods c) (KString k) = Ok (VBuiltin b) /\
    invoke c args = call_builtin b args.

(** The token is not an own property of the table and no object above
    the table has a property of that name. *)
Definition unclaimed (c : Closure Args Ret Err) (k : string) : Prop :=
  own (methods c) !! KString k = None /\
  inherited (proto (methods c)) k = None.

End Clients.

(** ** Concrete programs used as test inputs *)

(** An arrow function returning a value: [(...) => r]. *)
Definition arrow {Args Ret Err : Type} (f : Args -> Ret) : Method Args Ret Err :=
  mkMethod (fun args => Normal (f args)) false.

(** [(dispatch: string) => dispatch]: the dispatch function of the test
    suite and of the README's [echo]. *)
Definition identity_dispatch : string -> Completion Empty_set string :=
  fun dispatch => Normal dispatch.

(** [(dispatch) => `default ${dispatch}`], the default of the test suite. *)
Definition echo_default : Method string string Empty_set :=
  arrow (fun dispatch => "default " ++ dispatch).

Definition const_method (r : string) : Method string string Empty_set :=
  arrow (fun _ => r).

Definition run {A : Type} (m : M string string Empty_set A) : option A :=
  match m [] with Some (a, _) => Some a | None => None end.

(** The closures [multimethod(d => d)] and [multimethod(d => d, default)]
    right after construction. *)
Definition fresh_plain : Closure string string Empty_set :=
  mkClosure identity_dispatch empty_object.

Definition fresh_echo : Closure string string Empty_set :=
  mkClosure identity_dispatch (define_own empty_object defaultDispatch echo_default).

(** [multimethod(d => d)("toString")] *)
Definition unregistered_toString : option (Result string string Empty_set) :=
  run (let* mm := multimethod identity_dispatch None in
       call mm "toString").

(** [multimethod(d => d, default)("toString")] *)
Definition defaulted_toString : option (Result string string Empty_set) :=
  run (let* mm := multimethod identity_dispatch (Some echo_default) in
       call mm "toString").

(** [mm.method("__proto__", f); mm.method("name", g); mm("name")], each
    statement guarded by the client. *)
Definition register_name_after_proto :=
  run (let* mm := multimethod identity_dispatch None in
       let* r1 := method mm "__proto__" (const_method "f") in
       let* r2 := method mm "name" (const_method "g") in
       let* r := call mm "name" in
       ret (r1, r2, r)).

(** The same with [name] registered twice. *)
Definition reregister_name_after_proto :=
  run (let* mm := multimethod identity_dispatch None in
       let* _ := method mm "__proto__" (const_method "f") in
       let* r1 := method mm "name" (const_method "one") in
       let* r2 := method mm "name" (const_method "two") in
       let* r := call mm "name" in
       ret (r1, r2, r)).

(** [mm.method("__proto__", f).method("name", g).method("a", h)], then
    [mm("a")]. *)
Definition chain_of_three :=
  run (let* mm := multimethod identity_dispatch None in
       let* r1 := method mm "__proto__" (const_method "f") in
       let* r2 := chained r1 "name" (const_method "g") in
       let* r3 := chained r2 "a" (const_method "h") in
       let* r := call mm "a" in
       ret (r1, r2, r3, r)).

(** [multimethod(d => d)("__proto__")] *)
Definition unregistered_proto : option (Result string string Empty_set) :=
  run (let* mm := multimethod identity_dispatch None in
       call mm "__proto__").

(** [mm("call")] before and after [mm.method("__proto__", f)]. *)
Definition call_around_proto :=
  run (let* mm := multimethod identity_dispatch (Some echo_default) in
       let* before := call mm "call" in
       let* _ := method mm "__proto__" (const_method "f") in
       let* after := call mm "call" in
       ret (before, after)).

(** ** Chains of registrations and the compiled argument copy *)

Section Batches.

Context {Args Ret Err : Type}.

(** [mm.method(k1, m1).method(k2, m2)...]: a chain of any length,
    starting from the result [r] of what precedes it. *)
Fixpoint register_all (r : Outcome Err Ref)
    (l : list (string * Method Args Ret Err))
    : M Args Ret Err (Outcome Err Ref) :=
  match l with
  | [] => ret r
  | (k, m) :: l' => let* r' := chained r k m in register_all r' l'
  end.

(** The implementation a chain gives last for a token. *)
Fixpoint last_binding (k : string) (l : list (string * Method Args Ret Err))
    : option (Method Args Ret Err) :=
  match l with
  | [] => None
  | (k', m) :: l' =>
      match last_binding k l' with
      | Some m' => Some m'
      | None => if String.eqb k k' then Some m else None
      end
  end.

(** The [[Prototype]] slot of the table is still [Object.prototype]. *)
Definition pristine (c : Closure Args Ret Err) : Prop :=
  proto (methods c) = ObjectPrototype.

End Batches.

(** ** Caller code that registers while it runs

    The dispatch function (multimethod.ts:55) and the implementation
    (multimethod.ts:58) are caller code: they may hold registries and call
    [method] on them before they complete.  What such a body does to the
    store is given beside its completion, as the registrations it makes in
    order. *)

Section Reentrancy.

Context {Args Ret Err : Type}.

(** [target.method(dispatch, m)] inside a function body. *)
Record Registration : Type := mkRegistration {
  reg_target : Ref;
  reg_dispatch : string;
  reg_method : Method Args Ret Err
}.

(** The registrations the dispatch function makes on given arguments, and
    those a function object makes when it is called on them. *)
Record Effects : Type := mkEffects {
  dispatch_registers : Args -> list Registration;
  method_registers : Method Args Ret Err -> Args -> list Registration
}.

(** Caller code that registers nothing. *)
Definition quiet : Effects := mkEffects (fun _ => []) (fun _ _ => []).





End Reentrancy.

Arguments Registration : clear implicits.
Arguments Effects : clear implicits.

Section Arguments.

Context {V : Type}.





End Arguments.

(** A dispatch function that rejects the empty string, and an
    implementation that throws, over thrown values that are strings. *)
Definition checked_dispatch : string -> Completion string string :=
  fun dispatch =>
    if String.eqb dispatch "" then Raise "empty" else Normal dispatch.

Definition throwing_method : Method string string string :=
  mkMethod (fun dispatch => Raise ("cannot handle " ++ dispatch)) false.

Definition checked_closure : Closure string string string :=
  mkClosure checked_dispatch
    (define_own empty_object (KString "bad") throwing_method).



(** * Properties *)

(** Case analysis on a key looked up in a literal property list. *)
Ltac key_cases k :=
  repeat (match goal with
          | |- context [String.eqb k ?s] => destruct (String.eqb_spec k s)
          | H : context [String.eqb k ?s] |- _ => destruct (String.eqb_spec k s)
          end; try subst k; cbn in * ).

Section Chain.

Context {Args Ret Err : Type}.

#[local] Abbreviation Method := (Method Args Ret Err).
#[local] Abbreviation Methods := (Methods Args Ret Err).
#[local] Abbreviation Proto := (Proto Args Ret Err).

(** The only accessor that reads or writes the [[Prototype]] slot is
    [__proto__]. *)
Lemma inherited_ProtoAccessor (p : Proto) (k : string) :
  inherited p k = Some ProtoAccessor -> k = "__proto__".
Proof.
  unfold inherited.
  destruct p as [|f]; [|destruct f as [g []]]; cbn; intros H;
    key_cases k; try discriminate; reflexivity.
Qed.

Lemma inherited_proto (p : Proto) :
  inherited p "__proto__" = Some ProtoAccessor.
Proof. destruct p as [|[g []]]; reflexivity. Qed.

(** Nothing above the table is [undefined]: what the chain holds is a
    function, an object, a string or a number. *)
Lemma inherited_Data_not_nullish (p : Proto) (k : string)
    (v : Value Args Ret Err) (w : bool) :
  inherited p k = Some (Data v w) -> nullish v = false.
Proof.
  unfold inherited.
  destruct p as [|f]; [|destruct f as [g []]]; cbn; intros H;
    key_cases k; try discriminate; injection H as <- _; reflexivity.
Qed.

Lemma Get_own (o : Methods) (key : PropertyKey) (m : Method) :
  own o !! key = Some m -> Get o key = Ok (VMethod m).
Proof. unfold Get. intros ->. reflexivity. Qed.

Lemma Get_absent (o : Methods) (k : string) :
  own o !! KString k = None -> inherited (proto o) k = None ->
  Get o (KString k) = Ok VUndefined.
Proof. unfold Get. intros -> ->. reflexivity. Qed.

Lemma Get_defaultDispatch (o : Methods) :
  Get o defaultDispatch =
    Ok (match own o !! defaultDispatch with
        | Some d => VMethod d
        | None => VUndefined
        end).
Proof. unfold Get. destruct (own o !! defaultDispatch); reflexivity. Qed.

(** [methods[defaultDispatch] = defaultMethod] on the fresh table
    (multimethod.ts:65) creates the own property. *)
Lemma Set_default_on_empty (d : Method) :
  Set_ empty_object defaultDispatch d
    = Ok (define_own empty_object defaultDispatch d).
Proof. reflexivity. Qed.

(** A successful assignment is read back: own property, or the
    [[Prototype]] slot through the [__proto__] getter. *)
Lemma Set_Get (o o' : Methods) (k : string) (m : Method) :
  Set_ o (KString k) m = Ok o' -> Get o' (KString k) = Ok (VMethod m).
Proof.
  unfold Set_. intros H.
  destruct (own o !! KString k) as [m0|] eqn:Hown.
  - injection H as <-. apply Get_own. cbn. apply lookup_insert_eq.
  - destruct (inherited (proto o) k) as [[v [|]| |]|] eqn:Hinh;
      try discriminate; injection H as <-;
      try (apply Get_own; cbn; apply lookup_insert_eq).
    apply inherited_ProtoAccessor in Hinh. subst k.
    unfold Get. cbn [own proto]. rewrite Hown, inherited_proto. reflexivity.
Qed.

(** Away from [__proto__], an assignment that succeeds defines an own
    property and leaves the [[Prototype]] slot alone. *)
Lemma Set_define_own (o o' : Methods) (k : string) (m : Method) :
  k <> "__proto__" -> Set_ o (KString k) m = Ok o' ->
  o' = define_own o (KString k) m.
Proof.
  unfold Set_. intros Hk H.
  destruct (own o !! KString k); [congruence|].
  destruct (inherited (proto o) k) as [[v [|]| |]|] eqn:Hinh;
    try discriminate; try congruence.
  apply inherited_ProtoAccessor in Hinh. contradiction.
Qed.

(** Whatever the key, an assignment leaves the other own properties
    as they were. *)
Lemma Set_own_other (o o' : Methods) (k : string) (m : Method)
    (key : PropertyKey) :
  Set_ o (KString k) m = Ok o' -> key <> KString k ->
  own o' !! key = own o !! key.
Proof.
  unfold Set_. intros H Hne.
  destruct (own o !! KString k).
  - injection H as <-. cbn. apply lookup_insert_ne. congruence.
  - destruct (inherited (proto o) k) as [[v [|]| |]|];
      try discriminate; injection H as <-; cbn;
      try reflexivity; apply lookup_insert_ne; congruence.
Qed.


Lemma Set_keeps_default (o o' : Methods) (k : string) (m : Method) :
  Set_ o (KString k) m = Ok o' ->
  own o' !! defaultDispatch = own o !! defaultDispatch.
Proof. intros H. apply (Set_own_other _ _ _ _ _ H). discriminate. Qed.

(** On a table that already owns [k] the assignment cannot fail. *)
Lemma Set_own_succeeds (o : Methods) (k : string) (m m0 : Method) :
  own o !! KString k = Some m0 ->
  Set_ o (KString k) m = Ok (define_own o (KString k) m).
Proof. unfold Set_. intros ->. reflexivity. Qed.

(** After an assignment under [k] that succeeded, a second one under
    the same [k] succeeds as well. *)
Lemma Set_again (o o1 : Methods) (k : string) (m1 m2 : Method) :
  Set_ o (KString k) m1 = Ok o1 ->
  exists o2 : Methods, Set_ o1 (KString k) m2 = Ok o2.
Proof.
  intros H. pose proof (Set_Get _ _ _ _ H) as Hget.
  unfold Set_. unfold Get in Hget.
  destruct (own o1 !! KString k); [eexists; reflexivity|].
  destruct (inherited (proto o1) k) as [[v [|]| |]|] eqn:Hinh;
    try (eexists; reflexivity); try discriminate.
  injection Hget as ->.
  unfold inherited in Hinh.
  destruct (proto o1) as [|[g []]]; cbn in Hinh; key_cases k; discriminate.
Qed.

End Chain.

Section Registry.

Context {Args Ret Err : Type}.

#[local] Abbreviation Method' := (Method Args Ret Err).
#[local] Abbreviation Closure' := (Closure Args Ret Err).
#[local] Abbreviation Store' := (Store Args Ret Err).

(** *** The three operations on the store *)

Lemma multimethod_spec (f : Args -> Completion Err string)
    (d : option Method') (s : Store') :
  exists c : Closure',
    multimethod f d s = Some (Datatypes.length s, (s ++ [c])%list) /\
    dispatchFn c = f /\ proto (methods c) = ObjectPrototype /\
    own (methods c) !! defaultDispatch = d /\
    forall k : string, own (methods c) !! KString k = None.
Proof.
  unfold multimethod, alloc. eexists. split; [reflexivity|].
  destruct d as [d|]; cbn; repeat split;
    try apply lookup_insert_eq; try apply lookup_empty;
    intros k; rewrite ?lookup_insert_ne by discriminate; apply lookup_empty.
Qed.

Lemma call_spec (s : Store') (self : Ref) (c : Closure') (args : Args) :
  s !! self = Some c -> call self args s = Some (invoke c args, s).
Proof. unfold call, bind, read, ret. intros ->. reflexivity. Qed.

Lemma method_spec (s : Store') (self : Ref) (c : Closure') (k : string)
    (m : Method') :
  s !! self = Some c ->
  method self k m s =
    match Set_ (methods c) (KString k) m with
    | Ok o' => Some (Ok self, <[self := mkClosure (dispatchFn c) o']> s)
    | Throws x => Some (Throws x, s)
    end.
Proof.
  unfold method, bind, read, write, ret. intros ->.
  destruct (Set_ (methods c) (KString k) m); reflexivity.
Qed.

Lemma lookup_written (s : Store') (self : Ref) (c c' : Closure') :
  s !! self = Some c -> <[self := c']> s !! self = Some c'.
Proof.
  intros H. apply list_lookup_insert_eq. eapply lookup_lt_Some, H.
Qed.

(** *** Invocation, by what the table holds for the token *)

Lemma invoke_dispatch_raises (c : Closure') (args : Args) (e : Err) :
  dispatchFn c args = Raise e -> invoke c args = Raised (UserThrown e).
Proof. unfold invoke. intros ->. reflexivity. Qed.

Lemma invoke_found (c : Closure') (args : Args) (k : string) (m : Method') :
  dispatchFn c args = Normal k ->
  Get (methods c) (KString k) = Ok (VMethod m) ->
  invoke c args = call_value (VMethod m) args.
Proof. unfold invoke. intros -> ->. reflexivity. Qed.

Lemma invoke_absent (c : Closure') (args : Args) (k : string) :
  dispatchFn c args = Normal k ->
  Get (methods c) (KString k) = Ok VUndefined ->
  invoke c args =
    match own (methods c) !! defaultDispatch with
    | Some d => call_value (VMethod d) args
    | None => Raised (ErrorObject (no_method_message k))
    end.
Proof.
  unfold invoke. intros -> ->. cbn. rewrite Get_defaultDispatch.
  destruct (own (methods c) !! defaultDispatch); reflexivity.
Qed.


(** Where the prototype chain does not interfere, a missing method is
    answered by the default. *)
Theorem unclaimed_token_defaulted (c : Closure') (args : Args) (k : string)
    (d : Method') :
  dispatchFn c args = Normal k -> unclaimed c k ->
  own (methods c) !! defaultDispatch = Some d ->
  invoke c args = call_value (VMethod d) args.
Proof.
  intros Hd [Ho Hi] Hdef.
  rewrite (invoke_absent c args k Hd (Get_absent _ _ Ho Hi)), Hdef.
  reflexivity.
Qed.

(** A registration that returns is seen by every later invocation that
    dispatches to its token, and it returns the receiver. *)
Theorem registered_then_invoked (s s' : Store') (self r : Ref) (c : Closure')
    (k : string) (m : Method') :
  s !! self = Some c -> method self k m s = Some (Ok r, s') ->
  r = self /\
  exists c' : Closure',
    s' !! self = Some c' /\ dispatchFn c' = dispatchFn c /\
    forall args : Args, dispatchFn c args = Normal k ->
      call self args s' = Some (call_value (VMethod m) args, s').
Proof.
  intros Hs H. rewrite (method_spec _ _ _ _ _ Hs) in H.
  destruct (Set_ (methods c) (KString k) m) as [o'|x] eqn:Hset;
    [|discriminate].
  injection H as <- <-. split; [reflexivity|].
  eexists. split; [eapply lookup_written, Hs|]. split; [reflexivity|].
  intros args Hd. erewrite call_spec by (eapply lookup_written, Hs).
  f_equal. f_equal. eapply invoke_found; [exact Hd|].
  cbn. eapply Set_Get, Hset.
Qed.


(** Whatever the dispatch function or the resolved implementation
    throws reaches the caller as it is. *)
Theorem user_errors_propagate (c : Closure') (args : Args) (e : Err) :
  (dispatchFn c args = Raise e -> invoke c args = Raised (UserThrown e)) /\
  (forall (k : string) (m : Method'),
      dispatchFn c args = Normal k ->
      Get (methods c) (KString k) = Ok (VMethod m) ->
      m_call m args = Raise e -> invoke c args = Raised (UserThrown e)).
Proof.
  split; [apply invoke_dispatch_raises|].
  intros k m Hd Hg He. rewrite (invoke_found _ _ _ _ Hd Hg). cbn.
  rewrite He. reflexivity.
Qed.

End Registry.

(** * Specification properties *)

Section Claims.

Context {Args Ret Err : Type}.

#[local] Abbreviation Method'' := (Method Args Ret Err).
#[local] Abbreviation Closure'' := (Closure Args Ret Err).
#[local] Abbreviation Store'' := (Store Args Ret Err).

(** Every function-valued name of [Object.prototype] is still answered
    by a built-in function when a function object sits in between. *)
Lemma inherited_function_name (p : Proto Args Ret Err) (k : string)
    (d : Descriptor Args Ret Err) :
  assoc k ObjectPrototype_properties = Some d -> k <> "__proto__" ->
  exists (b : Builtin) (w : bool),
    inherited p k = Some (Data (VBuiltin b) w) /\
    (p = ObjectPrototype -> d = Data (VBuiltin b) w).
Proof.
  unfold inherited. intros Hd Hk.
  destruct p as [|f]; [|destruct f as [g []]]; cbn in *;
    key_cases k; try discriminate; try contradiction;
    injection Hd as <-;
    do 2 eexists; (split; [reflexivity|]); intros; try reflexivity;
    discriminate.
Qed.

(** C4 (as amended): when the dispatch token is the name of a
    function-valued property that the empty object inherits from
    Object.prototype (every inherited name but __proto__) and the table
    owns no property of that name, the lookup yields an inherited
    built-in function and the invocation applies it, without using the
    default and without the missing-method error. *)
Theorem inherited_name_shadows (c : Closure'') (args : Args) (k : string)
    (d : Descriptor Args Ret Err) :
  assoc k ObjectPrototype_properties = Some d ->
  k <> "__proto__" ->
  dispatchFn c args = Normal k ->
  own (methods c) !! KString k = None ->
  calls_inherited_function c args k /\
  (proto (methods c) = ObjectPrototype ->
     exists (v : Value Args Ret Err) (w : bool),
       d = Data v w /\ Get (methods c) (KString k) = Ok v).
Proof.
  intros Hd Hk Hdisp Hown.
  destruct (inherited_function_name (proto (methods c)) k d Hd Hk)
    as (b & w & Hinh & Hobj).
  assert (Hget : Get (methods c) (KString k) = Ok (VBuiltin b)).
  { unfold Get. rewrite Hown, Hinh. reflexivity. }
  split.
  - exists b. split; [exact Hget|].
    unfold invoke. rewrite Hdisp, Hget. reflexivity.
  - intros Hp. exists (VBuiltin b), w. split; [apply Hobj, Hp|exact Hget].
Qed.

Lemma perform_keeps_default (ops : list Op) :
  forall (s : Store'') (self : Ref) (c : Closure''),
    s !! self = Some c ->
    exists (s' : Store'') (c' : Closure''),
      perform self ops s = Some (tt, s') /\ s' !! self = Some c' /\
      dispatchFn c' = dispatchFn c /\
      own (methods c') !! defaultDispatch = own (methods c) !! defaultDispatch.
Proof.
  induction ops as [|[k m|args] ops IH]; intros s self c Hs.
  - exists s, c. repeat split; assumption.
  - cbn [perform]. unfold bind at 1. rewrite (method_spec _ _ _ _ _ Hs).
    destruct (Set_ (methods c) (KString k) m) as [o'|x] eqn:Hset.
    + destruct (IH _ self _
                  (lookup_written s self c (mkClosure (dispatchFn c) o') Hs))
        as (s' & c' & Hp & Hl & Hf & Hd).
      exists s', c'. repeat split; try assumption.
      rewrite Hd. cbn. eapply Set_keeps_default, Hset.
    + apply IH, Hs.
  - cbn [perform]. unfold bind at 1. rewrite (call_spec _ _ _ _ Hs).
    apply IH, Hs.
Qed.

(** C7: the key of the default slot differs from every string token,
    and after construction followed by any sequence of registrations and
    invocations the default slot holds exactly what the constructor was
    given (the default method, or nothing). *)
Theorem default_slot_fixed (f : Args -> Completion Err string)
    (d : option Method'') (s : Store'') (ops : list Op) :
  (forall dispatch : string, defaultDispatch <> KString dispatch) /\
  exists (s' : Store'') (c : Closure''),
    (let* mm := multimethod f d in
     let* _ := perform mm ops in
     ret mm) s = Some (Datatypes.length s, s') /\
    s' !! Datatypes.length s = Some c /\
    own (methods c) !! defaultDispatch = d /\
    Get (methods c) defaultDispatch =
      Ok (match d with Some m => VMethod m | None => VUndefined end).
Proof.
  split; [discriminate|].
  destruct (multimethod_spec f d s) as (c0 & Hm & _ & _ & Hd0 & _).
  assert (Hl : (s ++ [c0])%list !! Datatypes.length s = Some c0).
  { rewrite lookup_app_r by reflexivity.
    replace (Datatypes.length s - Datatypes.length s) with 0 by lia.
    reflexivity. }
  destruct (perform_keeps_default ops _ _ _ Hl) as (s' & c' & Hp & Hl' & _ & Hd).
  exists s', c'. unfold bind at 1. rewrite Hm. unfold bind. rewrite Hp.
  assert (Hd' : own (methods c') !! defaultDispatch = d)
    by (rewrite Hd; exact Hd0).
  repeat split; [exact Hl'|exact Hd'|].
  rewrite Get_defaultDispatch, Hd'. reflexivity.
Qed.

Lemma perform_invocations (s : Store'') (self : Ref) (c : Closure'')
    (calls : list Args) :
  s !! self = Some c -> perform self (map Invoke calls) s = Some (tt, s).
Proof.
  intros Hs. induction calls as [|args calls IH]; [reflexivity|].
  cbn [map perform]. unfold bind at 1. rewrite (call_spec _ _ _ _ Hs).
  exact IH.
Qed.

(** With user functions that touch no registry, an invocation, and any
    run of invocations, ends in the store it started from, whether the
    invocation returns or throws. *)
Theorem invocation_leaves_store (s : Store'') (self : Ref) (c : Closure'')
    (calls : list Args) :
  s !! self = Some c ->
  perform self (map Invoke calls) s = Some (tt, s) /\
  forall args : Args, call self args s = Some (invoke c args, s).
Proof.
  intros Hs. split; [apply (perform_invocations _ _ _ _ Hs)|].
  intros args. apply call_spec, Hs.
Qed.

(** Once [method(T, I)] has returned, every invocation whose
    arguments dispatch to [T] completes exactly as [I] does on those
    arguments, at once and after any number of further invocations. *)
Theorem registration_takes_effect (s s1 : Store'') (self r : Ref)
    (c : Closure'') (T : string) (I : Method'') :
  s !! self = Some c -> method self T I s = Some (Ok r, s1) ->
  forall (calls : list Args) (args : Args),
    dispatchFn c args = Normal T ->
    perform self (map Invoke calls) s1 = Some (tt, s1) /\
    call self args s1 = Some (call_value (VMethod I) args, s1).
Proof.
  intros Hs H calls args Hd.
  destruct (registered_then_invoked _ _ _ _ _ _ _ Hs H)
    as (_ & c1 & Hs1 & _ & Hcall).
  split; [apply (perform_invocations _ _ _ _ Hs1)|apply Hcall, Hd].
Qed.

(** Once [method(T, I1)] has returned, [method(T, I2)] returns too
    (no error, and the same reference), and from then on every invocation
    whose arguments dispatch to [T] completes exactly as [I2] does. *)
Theorem reregistration_replaces (s s1 : Store'') (self r : Ref)
    (c : Closure'') (T : string) (I1 I2 : Method'') :
  s !! self = Some c -> method self T I1 s = Some (Ok r, s1) ->
  exists s2 : Store'',
    method self T I2 s1 = Some (Ok self, s2) /\
    forall (calls : list Args) (args : Args),
      dispatchFn c args = Normal T ->
      perform self (map Invoke calls) s2 = Some (tt, s2) /\
      call self args s2 = Some (call_value (VMethod I2) args, s2).
Proof.
  intros Hs H.
  destruct (registered_then_invoked _ _ _ _ _ _ _ Hs H)
    as (_ & c1 & Hs1 & Hf1 & _).
  rewrite (method_spec _ _ _ _ _ Hs) in H.
  destruct (Set_ (methods c) (KString T) I1) as [o1|x] eqn:Hset1;
    [|discriminate].
  injection H as _ <-.
  rewrite (lookup_written _ _ _ _ Hs) in Hs1. injection Hs1 as <-.
  destruct (Set_again _ _ _ _ I2 Hset1) as (o2 & Hset2).
  pose proof (lookup_written s self c (mkClosure (dispatchFn c) o1) Hs) as Hl1.
  pose proof (method_spec _ _ _ T I2 Hl1) as Hm2.
  cbn [methods dispatchFn] in Hm2. rewrite Hset2 in Hm2.
  eexists. split; [exact Hm2|].
  intros calls args Hd.
  destruct (registered_then_invoked _ _ _ _ _ _ _ Hl1 Hm2)
    as (_ & c2 & Hs2 & _ & Hcall).
  split; [apply (perform_invocations _ _ _ _ Hs2)|apply Hcall, Hd].
Qed.

End Claims.

(** * Concrete programs *)

Example fresh_plain_constructed :
  multimethod identity_dispatch None [] = Some (0, [fresh_plain]).
Proof. reflexivity. Qed.

Example fresh_echo_constructed :
  multimethod identity_dispatch (Some echo_default) [] = Some (0, [fresh_echo]).
Proof. reflexivity. Qed.

(** C1: without a default, the unregistered token [toString] is not
    reported: the invocation returns the string that
    Object.prototype.toString makes for an undefined receiver. *)
Example toString_without_default :
  unregistered_toString = Some (ReturnedString "[object Undefined]") /\
  unregistered_toString
    <> Some (Raised (ErrorObject (no_method_message "toString"))).
Proof. split; [vm_compute; reflexivity | vm_compute; discriminate]. Qed.

(** C2: with a default, the unregistered token [toString] is not given to
    the default, whose answer would have been ["default toString"]. *)
Example toString_with_default :
  defaulted_toString = Some (ReturnedString "[object Undefined]") /\
  call_value (VMethod echo_default) "toString"
    = (Returned "default toString" : Result string string Empty_set).
Proof. split; vm_compute; reflexivity. Qed.

(** C3: once [__proto__] holds a function, registering under [name]
    throws a TypeError and an invocation dispatching to [name] does not run
    the implementation. *)
Example name_not_registered_after_proto :
  register_name_after_proto = Some (Ok 0, Throws TypeError, Raised TypeError) /\
  call_value (VMethod (const_method "g")) "name"
    = (Returned "g" : Result string string Empty_set).
Proof. split; vm_compute; reflexivity. Qed.

(** C5: in the same state both registrations under [name] throw, and the
    invocation uses neither implementation. *)
Example name_not_replaced_after_proto :
  reregister_name_after_proto
    = Some (Throws TypeError, Throws TypeError, Raised TypeError) /\
  call_value (VMethod (const_method "two")) "name"
    = (Returned "two" : Result string string Empty_set).
Proof. split; vm_compute; reflexivity. Qed.

(** C6: in the chain [__proto__], [name], [a] the second call throws
    instead of returning the multimethod, so the third registration never
    happens and [a] is not dispatchable. *)
Example chain_breaks_after_proto :
  chain_of_three
    = Some (Ok 0, Throws TypeError, Throws TypeError,
            Raised (ErrorObject (no_method_message "a"))).
Proof. vm_compute; reflexivity. Qed.

(** C8: with a dispatch function that returns normally and no
    implementation resolved, the token [__proto__] makes the multimethod
    itself fail with a TypeError, a failure that is not the missing-method
    error. *)
Example proto_token_raises_TypeError :
  identity_dispatch "__proto__" = Normal "__proto__" /\
  Get (methods fresh_plain) (KString "__proto__") = Ok VObjectPrototype /\
  unregistered_proto = Some (Raised TypeError) /\
  unregistered_proto
    <> Some (Raised (ErrorObject (no_method_message "__proto__"))).
Proof.
  repeat split; try (vm_compute; reflexivity). vm_compute; discriminate.
Qed.

(** C9: registering under [__proto__] changes what an invocation
    dispatching to the different token [call] does. *)
Example proto_registration_changes_call :
  call_around_proto = Some (Returned "default call", Raised TypeError).
Proof. vm_compute; reflexivity. Qed.

(** C4, as stated, fails at [__proto__]: the name is inherited from
    Object.prototype and nothing is registered under it, yet the lookup
    does not yield a function and no inherited function is called. *)
Lemma proto_token_calls_no_function :
  assoc "__proto__" (@ObjectPrototype_properties string string Empty_set)
    = Some ProtoAccessor /\
  dispatchFn fresh_echo "__proto__" = Normal "__proto__" /\
  own (methods fresh_echo) !! KString "__proto__" = None /\
  ~ calls_inherited_function fresh_echo "__proto__" "__proto__".
Proof.
  repeat split; try (vm_compute; reflexivity).
  intros (b & Hget & _). vm_compute in Hget. discriminate.
Qed.

Lemma inherited_name_shadows_witness :
  assoc "toString" (@ObjectPrototype_properties string string Empty_set)
    = Some (Data (VBuiltin Object_toString) true) /\
  dispatchFn fresh_echo "toString" = Normal "toString" /\
  own (methods fresh_echo) !! KString "toString" = None /\
  calls_inherited_function fresh_echo "toString" "toString".
Proof.
  assert (H1 : assoc "toString"
                 (@ObjectPrototype_properties string string Empty_set)
               = Some (Data (VBuiltin Object_toString) true))
    by reflexivity.
  assert (H2 : dispatchFn fresh_echo "toString" = Normal "toString")
    by reflexivity.
  assert (H3 : own (methods fresh_echo) !! KString "toString" = None)
    by (vm_compute; reflexivity).
  split; [exact H1|]. split; [exact H2|]. split; [exact H3|].
  apply (inherited_name_shadows fresh_echo "toString" "toString" _ H1
           ltac:(discriminate) H2 H3).
Defined.

Lemma invocation_leaves_store_witness :
  [fresh_echo] !! 0 = Some fresh_echo /\
  perform 0 (map Invoke ["foo"; "toString"]) [fresh_echo]
    = Some (tt, [fresh_echo]).
Proof.
  split; [reflexivity|].
  apply (invocation_leaves_store [fresh_echo] 0 fresh_echo ["foo"; "toString"]).
  reflexivity.
Defined.

Lemma registration_takes_effect_witness :
  [fresh_plain] !! 0 = Some fresh_plain /\
  method 0 "foo" (const_method "foo") [fresh_plain]
    = Some (Ok 0,
            [mkClosure identity_dispatch
               (define_own empty_object (KString "foo") (const_method "foo"))]) /\
  call 0 "foo"
    [mkClosure identity_dispatch
       (define_own empty_object (KString "foo") (const_method "foo"))]
    = Some (Returned "foo",
            [mkClosure identity_dispatch
               (define_own empty_object (KString "foo") (const_method "foo"))]).
Proof.
  assert (H1 : [fresh_plain] !! 0 = Some fresh_plain) by reflexivity.
  assert (H2 : method 0 "foo" (const_method "foo") [fresh_plain]
               = Some (Ok 0,
                       [mkClosure identity_dispatch
                          (define_own empty_object (KString "foo")
                             (const_method "foo"))]))
    by (vm_compute; reflexivity).
  split; [exact H1|]. split; [exact H2|].
  apply (registration_takes_effect _ _ 0 0 fresh_plain "foo"
           (const_method "foo") H1 H2 [] "foo").
  reflexivity.
Defined.

Lemma reregistration_replaces_witness :
  [fresh_plain] !! 0 = Some fresh_plain /\
  method 0 "x" (const_method "1") [fresh_plain]
    = Some (Ok 0,
            [mkClosure identity_dispatch
               (define_own empty_object (KString "x") (const_method "1"))]) /\
  exists s2 : Store string string Empty_set,
    method 0 "x" (const_method "2")
      [mkClosure identity_dispatch
         (define_own empty_object (KString "x") (const_method "1"))]
      = Some (Ok 0, s2) /\
    call 0 "x" s2 = Some (Returned "2", s2).
Proof.
  assert (H1 : [fresh_plain] !! 0 = Some fresh_plain) by reflexivity.
  assert (H2 : method 0 "x" (const_method "1") [fresh_plain]
               = Some (Ok 0,
                       [mkClosure identity_dispatch
                          (define_own empty_object (KString "x")
                             (const_method "1"))]))
    by (vm_compute; reflexivity).
  split; [exact H1|]. split; [exact H2|].
  destruct (reregistration_replaces _ _ 0 0 fresh_plain "x"
              (const_method "1") (const_method "2") H1 H2) as (s2 & Hm & Hc).
  exists s2. split; [exact Hm|].
  apply (Hc [] "x"). reflexivity.
Defined.

Lemma default_slot_fixed_witness :
  defaultDispatch <> KString "defaultDispatch" /\
  exists (s' : Store string string Empty_set) (c : Closure string string Empty_set),
    s' !! 0 = Some c /\
    own (methods c) !! defaultDispatch = Some echo_default.
Proof.
  destruct (default_slot_fixed identity_dispatch (Some echo_default) []
              [Register "__proto__" (const_method "f");
               Register "defaultDispatch" (const_method "g");
               Invoke "defaultDispatch"])
    as (Hne & s' & c & _ & Hl & Hd & _).
  split; [apply Hne|]. exists s', c. split; [exact Hl|exact Hd].
Defined.

(** * Further properties of the table and the registry *)

Section Assignment.

Context {Args Ret Err : Type}.

#[local] Abbreviation MethodA := (Method Args Ret Err).
#[local] Abbreviation MethodsA := (Methods Args Ret Err).

(** An assignment throws nothing but a TypeError. *)
Lemma Set_throws_TypeError (o : MethodsA) (key : PropertyKey) (m : MethodA)
    (x : Thrown Err) :
  Set_ o key m = Throws x -> x = TypeError.
Proof.
  unfold Set_. destruct (own o !! key); [discriminate|].
  destruct key as [k|d]; [|discriminate].
  destruct (inherited (proto o) k) as [[v [|]| |]|];
    try discriminate; intros H; injection H as <-; reflexivity.
Qed.

(** Below [Object.prototype] alone every assignment goes through. *)
Lemma Set_pristine (o : MethodsA) (k : string) (m : MethodA) :
  proto o = ObjectPrototype ->
  exists o' : MethodsA, Set_ o (KString k) m = Ok o' /\
    (k <> "__proto__" ->
       o' = define_own o (KString k) m /\ proto o' = ObjectPrototype).
Proof.
  intros Hp. unfold Set_.
  destruct (own o !! KString k);
    [eexists; split; [reflexivity|intros _; split; [reflexivity|exact Hp]]|].
  rewrite Hp. unfold inherited. cbn.
  key_cases k;
    (eexists; split; [reflexivity|]; intros Hk;
     try contradiction; (split; [reflexivity|exact Hp])).
Qed.

(** An own property under another key does not change what an
    assignment does. *)
Lemma Set_after_define (o : MethodsA) (k1 k2 : string) (m1 m2 : MethodA) :
  k1 <> k2 -> k1 <> "__proto__" ->
  Set_ (define_own o (KString k2) m2) (KString k1) m1 =
    match Set_ o (KString k1) m1 with
    | Ok _ => Ok (define_own (define_own o (KString k2) m2) (KString k1) m1)
    | Throws x => Throws x
    end.
Proof.
  intros Hne Hp. unfold Set_. cbn [own proto define_own].
  rewrite lookup_insert_ne by congruence.
  destruct (own o !! KString k1); [reflexivity|].
  destruct (inherited (proto o) k1) as [[v [|]| |]|] eqn:Hinh;
    try reflexivity.
  apply inherited_ProtoAccessor in Hinh. contradiction.
Qed.

Lemma define_own_commute (o : MethodsA) (k1 k2 : PropertyKey)
    (m1 m2 : MethodA) :
  k1 <> k2 ->
  define_own (define_own o k1 m1) k2 m2 = define_own (define_own o k2 m2) k1 m1.
Proof.
  intros Hne. unfold define_own. cbn. f_equal.
  apply insert_insert_ne. congruence.
Qed.

End Assignment.

Section Registrations.

Context {Args Ret Err : Type}.

#[local] Abbreviation MethodR := (Method Args Ret Err).
#[local] Abbreviation MethodsR := (Methods Args Ret Err).
#[local] Abbreviation ClosureR := (Closure Args Ret Err).
#[local] Abbreviation StoreR := (Store Args Ret Err).

(** A registration either returns its receiver, having replaced only
    its own closure and kept the dispatch function, or throws a TypeError
    and leaves the store as it was.  It returns whenever the table owns
    the token, and whenever the table is still below [Object.prototype]. *)
Theorem registration_outcome (s : StoreR) (self : Ref) (c : ClosureR)
    (k : string) (m : MethodR) :
  s !! self = Some c ->
  ((exists c' : ClosureR,
      method self k m s = Some (Ok self, <[self := c']> s) /\
      dispatchFn c' = dispatchFn c /\
      Get (methods c') (KString k) = Ok (VMethod m)) \/
   method self k m s = Some (Throws TypeError, s)) /\
  (pristine c \/ own (methods c) !! KString k <> None ->
   exists c' : ClosureR,
     method self k m s = Some (Ok self, <[self := c']> s) /\
     dispatchFn c' = dispatchFn c /\
     Get (methods c') (KString k) = Ok (VMethod m)).
Proof.
  intros Hs. rewrite (method_spec _ _ _ _ _ Hs).
  destruct (Set_ (methods c) (KString k) m) as [o'|x] eqn:Hset.
  - split; [left|intros _];
      (exists (mkClosure (dispatchFn c) o'); split; [reflexivity|];
       split; [reflexivity|]; cbn; eapply Set_Get, Hset).
  - rewrite (Set_throws_TypeError _ _ _ _ Hset) in *.
    split; [right; reflexivity|]. intros [Hp|Hown]; exfalso.
    + destruct (Set_pristine (methods c) k m Hp) as (o' & Ho' & _).
      rewrite Ho' in Hset. discriminate.
    + destruct (own (methods c) !! KString k) as [m0|] eqn:Ho;
        [|contradiction].
      rewrite (Set_own_succeeds _ _ m m0 Ho) in Hset. discriminate.
Qed.


(** Registrations under two different tokens, neither of them
    [__proto__], can be made in either order: same results, same store. *)
Theorem registrations_commute (s : StoreR) (self : Ref) (c : ClosureR)
    (k1 k2 : string) (m1 m2 : MethodR) :
  s !! self = Some c -> k1 <> k2 -> k1 <> "__proto__" -> k2 <> "__proto__" ->
  (let* r1 := method self k1 m1 in
   let* r2 := method self k2 m2 in
   ret (r1, r2)) s
  =
  (let* r2 := method self k2 m2 in
   let* r1 := method self k1 m1 in
   ret (r1, r2)) s.
Proof.
  intros Hs Hne Hp1 Hp2. unfold bind at 1 3.
  rewrite !(method_spec _ _ _ _ _ Hs).
  destruct (Set_ (methods c) (KString k1) m1) as [o1|x1] eqn:H1;
    destruct (Set_ (methods c) (KString k2) m2) as [o2|x2] eqn:H2;
    try (pose proof (Set_define_own _ _ _ _ Hp1 H1); subst o1);
    try (pose proof (Set_define_own _ _ _ _ Hp2 H2); subst o2);
    unfold bind;
    rewrite ?(method_spec _ _ _ _ _ (lookup_written s self c _ Hs)),
            ?(method_spec _ _ _ _ _ Hs);
    cbn [methods dispatchFn];
    rewrite ?(Set_after_define (methods c) k2 k1) by congruence;
    rewrite ?(Set_after_define (methods c) k1 k2) by congruence;
    rewrite ?H1, ?H2; try reflexivity.
  unfold ret. do 2 f_equal.
  etrans; [apply list_insert_insert_eq|].
  symmetry. etrans; [apply list_insert_insert_eq|].
  rewrite (define_own_commute (methods c) (KString k1) (KString k2))
    by congruence.
  reflexivity.
Qed.

End Registrations.

Section Dispatch.

Context {Args Ret Err : Type}.

#[local] Abbreviation MethodD := (Method Args Ret Err).
#[local] Abbreviation ClosureD := (Closure Args Ret Err).
#[local] Abbreviation StoreD := (Store Args Ret Err).



Lemma register_all_Throws (l : list (string * MethodD)) (x : Thrown Err)
    (s : StoreD) :
  register_all (Throws x) l s = Some (Throws x, s).
Proof.
  induction l as [|[k m] l IH]; [reflexivity|].
  cbn [register_all chained]. unfold bind, ret at 1. exact IH.
Qed.

(** The table a chain of registrations builds below [Object.prototype]. *)
Lemma register_all_table (l : list (string * MethodD)) :
  forall (s : StoreD) (self : Ref) (c : ClosureD),
    s !! self = Some c -> pristine c ->
    Forall (fun p => fst p <> "__proto__") l ->
    exists c' : ClosureD,
      register_all (Ok self) l s = Some (Ok self, <[self := c']> s) /\
      dispatchFn c' = dispatchFn c /\ pristine c' /\
      own (methods c') !! defaultDispatch = own (methods c) !! defaultDispatch /\
      forall k : string,
        own (methods c') !! KString k =
          match last_binding k l with
          | Some m => Some m
          | None => own (methods c) !! KString k
          end.
Proof.
  induction l as [|[k m] l IH]; intros s self c Hs Hp Hall.
  - exists c. split.
    { cbn. unfold ret. do 2 f_equal. symmetry. apply list_insert_id, Hs. }
    repeat split; auto.
  - apply Forall_cons in Hall as [Hk Hall]. cbn in Hk.
    destruct (Set_pristine (methods c) k m Hp) as (o' & Hset & Ho').
    destruct (Ho' Hk) as [-> Hp'].
    cbn [register_all chained]. unfold bind at 1.
    rewrite (method_spec _ _ _ _ _ Hs), Hset.
    pose proof (lookup_written s self c
                  (mkClosure (dispatchFn c)
                     (define_own (methods c) (KString k) m)) Hs) as Hs1.
    destruct (IH _ self _ Hs1 Hp' Hall) as (c' & Hr & Hf & Hpc & Hdef & Hown).
    exists c'. rewrite Hr. split.
    { do 2 f_equal. apply list_insert_insert_eq. }
    split; [exact Hf|]. split; [exact Hpc|]. split.
    { rewrite Hdef. cbn. apply lookup_insert_ne. discriminate. }
    intros k0. rewrite Hown. cbn [last_binding].
    destruct (last_binding k0 l); [reflexivity|]. cbn.
    destruct (String.eqb_spec k0 k) as [->|Hne].
    + apply lookup_insert_eq.
    + apply lookup_insert_ne. congruence.
Qed.

(** On a registry whose table is still below [Object.prototype], a chain
    of registrations of any length that does not use the token [__proto__]
    returns the registry at every step; afterwards each token of the chain
    dispatches to the implementation given last for it, and every other
    token is answered as before the chain. *)
Theorem chain_registers_all (s : StoreD) (self : Ref) (c : ClosureD)
    (l : list (string * MethodD)) :
  s !! self = Some c -> pristine c ->
  Forall (fun p => fst p <> "__proto__") l ->
  exists s' : StoreD,
    register_all (Ok self) l s = Some (Ok self, s') /\
    forall (args : Args) (k : string),
      dispatchFn c args = Normal k ->
      call self args s' =
        Some (match last_binding k l with
              | Some m => call_value (VMethod m) args
              | None => invoke c args
              end, s').
Proof.
  intros Hs Hp Hall.
  destruct (register_all_table l s self c Hs Hp Hall)
    as (c' & Hr & Hf & Hpc & Hdef & Hown).
  eexists. split; [exact Hr|]. intros args k Hd.
  rewrite (call_spec _ _ c' _ (lookup_written s self c c' Hs)).
  do 2 f_equal. specialize (Hown k).
  destruct (last_binding k l) as [m|].
  - apply (invoke_found c' args k m); [rewrite Hf; exact Hd|].
    apply Get_own, Hown.
  - unfold invoke. rewrite Hf, Hd. unfold Get.
    rewrite Hown, Hdef. unfold pristine in *. rewrite Hp, Hpc. reflexivity.
Qed.

(** What a registry answers after construction and a chain of
    registrations without [__proto__]: the implementation given last for
    the token; else, for one of the names of [Object.prototype], what that
    name holds; else the default; else the missing-method error. *)
Theorem fresh_chain_dispatch (f : Args -> Completion Err string)
    (d : option MethodD) (l : list (string * MethodD)) (s : StoreD) :
  Forall (fun p => fst p <> "__proto__") l ->
  exists s' : StoreD,
    (let* mm := multimethod f d in register_all (Ok mm) l) s
      = Some (Ok (Datatypes.length s), s') /\
    forall (args : Args) (k : string),
      f args = Normal k ->
      call (Datatypes.length s) args s' =
        Some (match last_binding k l with
              | Some m => call_value (VMethod m) args
              | None =>
                  match assoc k ObjectPrototype_properties with
                  | Some (Data v _) => call_value v args
                  | Some _ => Raised TypeError
                  | None =>
                      match d with
                      | Some dm => call_value (VMethod dm) args
                      | None =>
                          Raised (ErrorObject
                                    ("No method defined for dispatch " ++ k))
                      end
                  end
              end, s').
Proof.
  intros Hall.
  destruct (multimethod_spec f d s) as (c0 & Hm & Hf0 & Hp0 & Hd0 & Ho0).
  assert (Hl : (s ++ [c0])%list !! Datatypes.length s = Some c0).
  { rewrite lookup_app_r by reflexivity.
    replace (Datatypes.length s - Datatypes.length s) with 0 by lia.
    reflexivity. }
  destruct (chain_registers_all _ _ c0 l Hl Hp0 Hall) as (s' & Hr & Hcall).
  exists s'. unfold bind. rewrite Hm. split; [exact Hr|].
  intros args k Hk. rewrite (Hcall args k) by (rewrite Hf0; exact Hk).
  do 2 f_equal. destruct (last_binding k l); [reflexivity|].
  unfold invoke. rewrite Hf0, Hk. unfold Get at 1.
  rewrite Ho0, Hp0. unfold inherited. cbn [chain].
  destruct (assoc k ObjectPrototype_properties) as [[v w| |]|] eqn:Ha.
  - pose proof (inherited_Data_not_nullish ObjectPrototype k v w Ha) as Hn.
    destruct v; try discriminate Hn; reflexivity.
  - reflexivity.
  - reflexivity.
  - cbn. rewrite Get_defaultDispatch, Hd0. destruct d; reflexivity.
Qed.

End Dispatch.

Section ArgumentCopy.

Context {V : Type}.




End ArgumentCopy.

(** ** Instances of the properties above *)

Lemma user_errors_propagate_witness :
  dispatchFn checked_closure "" = Raise "empty" /\
  invoke checked_closure "" = Raised (UserThrown "empty") /\
  dispatchFn checked_closure "bad" = Normal "bad" /\
  Get (methods checked_closure) (KString "bad") = Ok (VMethod throwing_method) /\
  m_call throwing_method "bad" = Raise "cannot handle bad" /\
  invoke checked_closure "bad" = Raised (UserThrown "cannot handle bad").
Proof.
  assert (H1 : dispatchFn checked_closure "" = Raise "empty") by reflexivity.
  assert (H2 : dispatchFn checked_closure "bad" = Normal "bad") by reflexivity.
  assert (H3 : Get (methods checked_closure) (KString "bad")
               = Ok (VMethod throwing_method)) by (vm_compute; reflexivity).
  assert (H4 : m_call throwing_method "bad" = Raise "cannot handle bad")
    by reflexivity.
  split; [exact H1|]. split.
  { apply (proj1 (user_errors_propagate checked_closure "" "empty") H1). }
  split; [exact H2|]. split; [exact H3|]. split; [exact H4|].
  apply (proj2 (user_errors_propagate checked_closure "bad" "cannot handle bad")
           "bad" throwing_method H2 H3 H4).
Defined.


Lemma registration_outcome_witness :
  [fresh_plain] !! 0 = Some fresh_plain /\
  pristine fresh_plain /\
  exists c' : Closure string string Empty_set,
    method 0 "name" (const_method "n") [fresh_plain]
      = Some (Ok 0, <[0 := c']> [fresh_plain]) /\
    Get (methods c') (KString "name") = Ok (VMethod (const_method "n")).
Proof.
  assert (H1 : [fresh_plain] !! 0 = Some fresh_plain) by reflexivity.
  assert (H2 : pristine fresh_plain) by reflexivity.
  split; [exact H1|]. split; [exact H2|].
  destruct (proj2 (registration_outcome [fresh_plain] 0 fresh_plain "name"
                     (const_method "n") H1) (or_introl H2))
    as (c' & Hm & _ & Hg).
  exists c'. split; [exact Hm|exact Hg].
Defined.


Lemma registrations_commute_witness :
  (let* r1 := method 0 "a" (const_method "1") in
   let* r2 := method 0 "b" (const_method "2") in
   ret (r1, r2)) [fresh_plain]
  =
  (let* r2 := method 0 "b" (const_method "2") in
   let* r1 := method 0 "a" (const_method "1") in
   ret (r1, r2)) [fresh_plain].
Proof.
  apply (registrations_commute [fresh_plain] 0 fresh_plain "a" "b"
           (const_method "1") (const_method "2"));
    [reflexivity | discriminate | discriminate | discriminate].
Defined.

Lemma chain_registers_all_witness :
  exists s' : Store string string Empty_set,
    register_all (Ok 0)
      [("x", const_method "1"); ("y", const_method "2"); ("x", const_method "3")]
      [fresh_echo] = Some (Ok 0, s') /\
    call 0 "x" s' = Some (Returned "3", s') /\
    call 0 "z" s' = Some (Returned "default z", s').
Proof.
  destruct (chain_registers_all [fresh_echo] 0 fresh_echo
              [("x", const_method "1"); ("y", const_method "2");
               ("x", const_method "3")])
    as (s' & Hr & Hc).
  - reflexivity.
  - reflexivity.
  - repeat constructor; discriminate.
  - exists s'. split; [exact Hr|]. split.
    + apply (Hc "x" "x"). reflexivity.
    + apply (Hc "z" "z"). reflexivity.
Defined.

Lemma fresh_chain_dispatch_witness :
  exists s' : Store string string Empty_set,
    (let* mm := multimethod identity_dispatch None in
     register_all (Ok mm) [("foo", const_method "foo")]) []
      = Some (Ok 0, s') /\
    call 0 "foo" s' = Some (Returned "foo", s') /\
    call 0 "bar" s'
      = Some (Raised (ErrorObject "No method defined for dispatch bar"), s').
Proof.
  destruct (fresh_chain_dispatch identity_dispatch None
              [("foo", const_method "foo")] [])
    as (s' & Hr & Hc).
  - repeat constructor; discriminate.
  - exists s'. split; [exact Hr|]. split.
    + apply (Hc "foo" "foo"). reflexivity.
    + apply (Hc "bar" "bar"). reflexivity.
Defined.


(** * Invocation with caller code that registers *)

Section ReentrantInvocation.

Context {Args Ret Err : Type}.

#[local] Abbreviation StoreE := (Store Args Ret Err).
#[local] Abbreviation EffectsE := (Effects Args Ret Err).





End ReentrantInvocation.


